(** * Backfill window resolution (flytekit/clis/sdk_in_container/backfill.py)

    A shallow embedding of [resolve_backfill_window] and of the [backfill]
    click command, together with the part of Python's [datetime] module the
    two rely on: truthiness of [datetime] and [timedelta] values, and
    [datetime + timedelta] / [datetime - timedelta] with their range check.
    The function is given twice: as a function of its three arguments, and
    as the body of a call that runs in a frame of local variables.  The
    command is a run over its collaborators, which may emit events of
    their own and may fail. *)

From Stdlib Require Import ZArith String List Bool Lia.
Import ListNotations.
Local Open Scope string_scope.
Local Open Scope Z_scope.

(** ** Outcomes of a Python call *)

(** The exceptions that appear in this development.  [BadParameter] is
    [click.BadParameter] with its message; [OverflowError] is raised by the
    [datetime] module when a result leaves the representable range;
    [TypeError] is what Python raises when [None] is used as an operand. *)
Inductive exn : Type :=
| BadParameter (message : string)
| OverflowError
| TypeError.

Inductive result (A : Type) : Type :=
| Ok (a : A)
| Raise (e : exn).
Arguments Ok {A} a.
Arguments Raise {A} e.

Definition bind {A B : Type} (r : result A) (k : A -> result B) : result B :=
  match r with
  | Ok a => k a
  | Raise e => Raise e
  end.

Notation "x <- r ;; k" := (bind r (fun x => k))
  (at level 61, r at next level, right associativity).

(** ** The [datetime] module *)

Module PyDatetime.

(** *** Calendar helpers *)

Definition _MAXORDINAL : Z := 3652059.

Definition _is_leap (year : Z) : bool :=
  (year mod 4 =? 0) && (negb (year mod 100 =? 0) || (year mod 400 =? 0)).

Definition _days_before_year (year : Z) : Z :=
  let y := year - 1 in
  y * 365 + y / 4 - y / 100 + y / 400.

Definition _DAYS_BEFORE_MONTH : list Z :=
  [0; 31; 59; 90; 120; 151; 181; 212; 243; 273; 304; 334].

Definition _days_before_month (year month : Z) : Z :=
  nth (Z.to_nat (month - 1)) _DAYS_BEFORE_MONTH 0
  + (if (2 <? month) && _is_leap year then 1 else 0).

Definition _ymd2ord (year month day : Z) : Z :=
  _days_before_year year + _days_before_month year month + day.

(** *** [timedelta] *)

(** A [timedelta] holds the three normalised fields Python stores. *)
Record timedelta : Type := mk_timedelta {
  days : Z;
  seconds : Z;
  microseconds : Z
}.

Definition timedelta_ok (d : timedelta) : Prop :=
  -999999999 <= days d <= 999999999
  /\ 0 <= seconds d < 86400
  /\ 0 <= microseconds d < 1000000.

(** [timedelta(days=d, seconds=s, microseconds=us)] on integers: carry
    microseconds into seconds and seconds into days (floor division), then
    refuse a day count of magnitude above 999999999. *)
Definition timedelta_new (d s us : Z) : result timedelta :=
  let s := s + us / 1000000 in
  let us := us mod 1000000 in
  let d := d + s / 86400 in
  let s := s mod 86400 in
  if 999999999 <? Z.abs d then Raise OverflowError
  else Ok (mk_timedelta d s us).

(** [timedelta.__add__] *)
Definition timedelta_add (a b : timedelta) : result timedelta :=
  timedelta_new (days a + days b) (seconds a + seconds b)
                (microseconds a + microseconds b).

(** [timedelta.__neg__] *)
Definition timedelta_neg (a : timedelta) : result timedelta :=
  timedelta_new (- days a) (- seconds a) (- microseconds a).

(** [timedelta.__bool__] *)
Definition timedelta_bool (a : timedelta) : bool :=
  negb (days a =? 0) || negb (seconds a =? 0) || negb (microseconds a =? 0).

(** The span in microseconds ([a / timedelta(microseconds=1)]). *)
Definition total_microseconds (a : timedelta) : Z :=
  (days a * 86400 + seconds a) * 1000000 + microseconds a.

(** *** [datetime] *)

Definition tzinfo : Type := string.

(** A [datetime]; the date part (year, month, day) is kept as its proleptic
    Gregorian ordinal, the value of [toordinal()], so that 0001-01-01 is
    day 1 and 9999-12-31 is day [_MAXORDINAL]. *)
Record datetime : Type := mk_datetime {
  ordinal : Z;
  hour : Z;
  minute : Z;
  second : Z;
  microsecond : Z;
  tz : option tzinfo;
  fold : bool
}.

Definition datetime_ok (t : datetime) : Prop :=
  1 <= ordinal t <= _MAXORDINAL
  /\ 0 <= hour t < 24
  /\ 0 <= minute t < 60
  /\ 0 <= second t < 60
  /\ 0 <= microsecond t < 1000000.

(** [datetime(year, month, day, hour, minute, second, microsecond)],
    naive, for arguments already in range. *)
Definition datetime_new (year month day h m s us : Z) : datetime :=
  mk_datetime (_ymd2ord year month day) h m s us None false.

(** Microseconds elapsed since 0001-01-01T00:00:00 on the value's own
    wall clock. *)
Definition timestamp (t : datetime) : Z :=
  (((ordinal t - 1) * 24 + hour t) * 60 + minute t) * 60 * 1000000
  + second t * 1000000 + microsecond t.

(** [datetime.__add__]: the value is turned into a [timedelta] counted
    from day 0, the operand is added, and the sum is accepted only when
    its day count is a valid ordinal.  The result keeps [tzinfo] and has
    [fold] cleared. *)
Definition datetime_add (t : datetime) (other : timedelta) : result datetime :=
  delta <- timedelta_new (ordinal t)
             (hour t * 3600 + minute t * 60 + second t) (microsecond t) ;;
  delta <- timedelta_add delta other ;;
  let h := seconds delta / 3600 in
  let rem := seconds delta mod 3600 in
  let m := rem / 60 in
  let s := rem mod 60 in
  if (0 <? days delta) && (days delta <=? _MAXORDINAL) then
    Ok (mk_datetime (days delta) h m s (microseconds delta) (tz t) false)
  else Raise OverflowError.

(** [datetime.__sub__] with a [timedelta] operand: [self + -other]. *)
Definition datetime_sub (t : datetime) (other : timedelta) : result datetime :=
  neg <- timedelta_neg other ;;
  datetime_add t neg.

(** Comparison of two values that carry the same [tzinfo]: the fields
    are compared lexicographically, most significant first. *)
Definition base_compare (a b : datetime) : comparison :=
  match ordinal a ?= ordinal b with
  | Eq =>
    match hour a ?= hour b with
    | Eq =>
      match minute a ?= minute b with
      | Eq =>
        match second a ?= second b with
        | Eq => microsecond a ?= microsecond b
        | c => c
        end
      | c => c
      end
    | c => c
    end
  | c => c
  end.

Definition datetime_gt (a b : datetime) : bool :=
  match base_compare a b with
  | Gt => true
  | _ => false
  end.

End PyDatetime.
Import PyDatetime.

(** ** Truthiness *)

(** Python's truth-value protocol: the meaning of a value in [if x]. *)
Class Truthy (A : Type) : Type := truth : A -> bool.

(** [datetime] defines neither [__bool__] nor [__len__]: always true. *)
#[export] Instance Truthy_datetime : Truthy datetime := fun _ => true.

#[export] Instance Truthy_timedelta : Truthy timedelta := timedelta_bool.

(** An optional argument: [None] is false, anything else answers for
    itself. *)
#[export] Instance Truthy_option {A : Type} `{Truthy A} : Truthy (option A) :=
  fun o => match o with
           | Some a => truth a
           | None => false
           end.

(** Operands that may be [None]. *)
Definition add_opt (t : option datetime) (w : option timedelta) : result datetime :=
  match t, w with
  | Some t, Some w => datetime_add t w
  | _, _ => Raise TypeError
  end.

Definition sub_opt (t : option datetime) (w : option timedelta) : result datetime :=
  match t, w with
  | Some t, Some w => datetime_sub t w
  | _, _ => Raise TypeError
  end.

(** ** [resolve_backfill_window] *)

Definition msg_any_two : string :=
  "Cannot use from-date, to-date and duration. Use any two".

Definition msg_pairs : string :=
  "One of following pairs are required -> (from-date, to-date) | (from-date, duration) | (to-date, duration)".

Definition msg_with_duration : string :=
  "One of start-date and end-date are needed with duration".

(** The function, branch for branch.  The two local variables [from_date]
    and [to_date] are optional all the way through, as in the source; the
    returned tuple is the pair of their final values. *)
Definition resolve_backfill_window
    (from_date to_date : option datetime) (window : option timedelta)
  : result (option datetime * option datetime) :=
  if truth from_date && truth to_date && truth window then
    Raise (BadParameter msg_any_two)
  else if negb (truth from_date || truth to_date) then
    Raise (BadParameter msg_pairs)
  else if truth from_date && truth to_date then
    Ok (from_date, to_date)
  else if negb (truth window) then
    Raise (BadParameter msg_with_duration)
  else if truth from_date then
    to_date <- add_opt from_date window ;;
    Ok (from_date, Some to_date)
  else
    from_date <- sub_opt to_date window ;;
    Ok (Some from_date, to_date).

(** The two error kinds of the specification, as sets of outcomes. *)
Definition ConflictingArguments {A : Type} (r : result A) : Prop :=
  r = Raise (BadParameter msg_any_two).

Definition InsufficientArguments {A : Type} (r : result A) : Prop :=
  r = Raise (BadParameter msg_pairs)
  \/ r = Raise (BadParameter msg_with_duration).

(** ** The function as a call in the interpreter *)

(** A call runs in a frame that holds the three parameters as local
    variables, which lines 35 and 37 assign to.  Beside the frame stands
    everything else a Python statement can read or change: the globals,
    the objects of the caller, the clock, the standard output.  That part
    is left abstract. *)
Section Frames.

Variable World : Type.

Record frame : Type := mk_frame {
  f_from_date : option datetime;
  f_to_date : option datetime;
  f_window : option timedelta
}.

Record state : Type := mk_state {
  world : World;
  locals : frame
}.

(** A statement: from a state to a state and either a value or an
    exception.  What was done before an exception stays done. *)
Definition stmt (A : Type) : Type := state -> state * result A.

Definition ret {A : Type} (a : A) : stmt A := fun s => (s, Ok a).

Definition raise {A : Type} (e : exn) : stmt A := fun s => (s, Raise e).

Definition stmt_bind {A B : Type} (c : stmt A) (k : A -> stmt B) : stmt B :=
  fun s =>
    match c s with
    | (s', Ok a) => k a s'
    | (s', Raise e) => (s', Raise e)
    end.

(** An expression over the local variables. *)
Definition eval {A : Type} (f : frame -> A) : stmt A :=
  fun s => (s, Ok (f (locals s))).

(** An expression over the local variables that may raise. *)
Definition compute {A : Type} (f : frame -> result A) : stmt A :=
  fun s => (s, f (locals s)).

(** [to_date = v] and [from_date = v] *)
Definition assign_to_date (v : option datetime) : stmt unit :=
  fun s =>
    (mk_state (world s)
              (mk_frame (f_from_date (locals s)) v (f_window (locals s))),
     Ok tt).

Definition assign_from_date (v : option datetime) : stmt unit :=
  fun s =>
    (mk_state (world s)
              (mk_frame v (f_to_date (locals s)) (f_window (locals s))),
     Ok tt).

(** What a statement can do with the rest of the interpreter: read it and
    change it. *)
Definition observe {A : Type} (f : World -> A) : stmt A :=
  fun s => (s, Ok (f (world s))).

Definition effect (f : World -> World) : stmt unit :=
  fun s => (mk_state (f (world s)) (locals s), Ok tt).

Notation "x <-- c ;; k" := (stmt_bind c (fun x => k))
  (at level 61, c at next level, right associativity).

(** The body of [resolve_backfill_window], statement for statement
    (lines 24 to 38). *)
Definition resolve_backfill_window_body
  : stmt (option datetime * option datetime) :=
  c <-- eval (fun l => truth (f_from_date l) && truth (f_to_date l)
                       && truth (f_window l)) ;;
  if c then raise (BadParameter msg_any_two) else
  c <-- eval (fun l => negb (truth (f_from_date l) || truth (f_to_date l))) ;;
  if c then raise (BadParameter msg_pairs) else
  _ <-- (c <-- eval (fun l => truth (f_from_date l) && truth (f_to_date l)) ;;
         if c then ret tt else
         c <-- eval (fun l => negb (truth (f_window l))) ;;
         if c then raise (BadParameter msg_with_duration) else
         c <-- eval (fun l => truth (f_from_date l)) ;;
         if c then
           v <-- compute (fun l => add_opt (f_from_date l) (f_window l)) ;;
           assign_to_date (Some v)
         else
           v <-- compute (fun l => sub_opt (f_to_date l) (f_window l)) ;;
           assign_from_date (Some v)) ;;
  eval (fun l => (f_from_date l, f_to_date l)).

(** The call: a fresh frame holds the arguments, the body runs, and the
    frame is dropped.  The caller is left with the rest of the interpreter
    and the outcome. *)
Definition call_resolve_backfill_window
    (from_date to_date : option datetime) (window : option timedelta)
    (w : World)
  : World * result (option datetime * option datetime) :=
  let '(s, r) :=
    resolve_backfill_window_body
      (mk_state w (mk_frame from_date to_date window)) in
  (world s, r).

End Frames.

Arguments stmt_bind {World A B}.
Arguments effect {World}.
Arguments observe {World A}.
Arguments ret {World A}.

(** ** The [backfill] command *)

(** What the command does to the outside world, in order.  [Secho] is a
    call of [click.secho] with its message and its [fg] colour. *)
Inductive event : Type :=
| RemoteRequested (project domain : string)
| BackfillLaunched (project domain : string) (from_date to_date : option datetime)
| ConsoleUrlGenerated
| Secho (text : string) (fg : option string).

(** The events that talk to the Flyte backend. *)
Definition is_network_call (e : event) : bool :=
  match e with
  | RemoteRequested _ _ | BackfillLaunched _ _ _ _ | ConsoleUrlGenerated => true
  | Secho _ _ => false
  end.

(** A command run: the events emitted so far and how the run ended.  An
    exception stops the run, keeping the events already emitted. *)
Definition run (A : Type) : Type := (list event * result A)%type.

Definition run_bind {A B : Type} (c : run A) (k : A -> run B) : run B :=
  match c with
  | (tr, Ok a) => let '(tr', r) := k a in (tr ++ tr', r)%list
  | (tr, Raise e) => (tr, Raise e)
  end.

Notation "x <~ c ;; k" := (run_bind c (fun x => k))
  (at level 61, c at next level, right associativity).

(** A pure computation inside a run: no event. *)
Definition pure {A : Type} (r : result A) : run A := ([], r).

(** A call to a collaborator: one event, then the collaborator's answer. *)
Definition call {A : Type} (e : event) (r : result A) : run A := ([e], r).

(** A call to a collaborator that acts on the outside world itself: the
    event of the call, then the collaborator's own events and answer. *)
Definition invoke {A : Type} (e : event) (c : run A) : run A :=
  (e :: fst c, snd c).

Definition trace {A : Type} (c : run A) : list event := fst c.
Definition outcome {A : Type} (c : run A) : result A := snd c.

(** The keyword arguments of [launch_backfill] (lines 155 to 168).  The
    last one is the sink for the collaborator's messages. *)
Record launch_request : Type := mk_launch_request {
  lr_project : string;
  lr_domain : string;
  lr_from_date : option datetime;
  lr_to_date : option datetime;
  lr_launchplan : string;
  lr_launchplan_version : option string;
  lr_execution_name : option string;
  lr_version : option string;
  lr_dry_run : bool;
  lr_no_execute : bool;
  lr_parallel : bool;
  lr_output : string -> option string -> run unit
}.

Definition newline : string := String (Ascii.ascii_of_nat 10) EmptyString.

Section Backfill.

(** The collaborators: the click context, the remote client that
    [get_and_save_remote_with_click_context] builds, the two methods of
    the client that the command uses, and [click.secho].  The launch may
    print and do whatever else it does; printing may fail. *)
Variables ClickContext Remote Entity : Type.

Variable get_and_save_remote_with_click_context :
  ClickContext -> string -> string -> result Remote.
Variable launch_backfill : Remote -> launch_request -> run (option Entity).
Variable generate_console_url : Remote -> Entity -> result string.
Variable click_secho : string -> option string -> result unit.

(** [click.secho(text, fg=fg)] *)
Definition secho (text : string) (fg : option string) : run unit :=
  call (Secho text fg) (click_secho text fg).

Definition backfill
    (ctx : ClickContext) (project domain : string)
    (from_date to_date : option datetime) (backfill_window : option timedelta)
    (launchplan : string) (launchplan_version : option string)
    (dry_run no_execute parallel : bool)
    (execution_name version : option string) : run unit :=
  dates <~ pure (resolve_backfill_window from_date to_date backfill_window) ;;
  let '(from_date, to_date) := dates in
  remote <~ call (RemoteRequested project domain)
                 (get_and_save_remote_with_click_context ctx project domain) ;;
  entity <~ invoke (BackfillLaunched project domain from_date to_date)
                   (launch_backfill remote
                      (mk_launch_request project domain from_date to_date
                         launchplan launchplan_version execution_name version
                         dry_run no_execute parallel secho)) ;;
  match entity with
  | Some entity =>
    console_url <~ call ConsoleUrlGenerated (generate_console_url remote entity) ;;
    if no_execute then
      secho (newline ++ " No Execution mode: Workflow registered at "
             ++ console_url) (Some "green")
    else
      secho (newline ++ " Execution can be seen at " ++ console_url
             ++ " to see execution in the console.") (Some "green")
  | None => pure (Ok tt)
  end.

End Backfill.

Arguments secho click_secho text fg : assert.
Arguments backfill {ClickContext Remote Entity}.

(** The line that [backfill] prints once an entity has come back. *)
Definition console_line (no_execute : bool) (console_url : string) : string :=
  if no_execute then
    newline ++ " No Execution mode: Workflow registered at " ++ console_url
  else
    newline ++ " Execution can be seen at " ++ console_url
    ++ " to see execution in the console.".

(** ** Sample values *)

Definition jan_1_2023 : datetime := datetime_new 2023 1 1 0 0 0 0.
Definition jan_8_2023 : datetime := datetime_new 2023 1 8 0 0 0 0.
Definition datetime_max : datetime :=
  datetime_new 9999 12 31 23 59 59 999999.
Definition datetime_min : datetime := datetime_new 1 1 1 0 0 0 0.

Definition seven_days : timedelta := mk_timedelta 7 0 0.
Definition minus_seven_days : timedelta := mk_timedelta (-7) 0 0.
Definition zero_duration : timedelta := mk_timedelta 0 0 0.
Definition one_microsecond : timedelta := mk_timedelta 0 0 1.

(** One past the largest [timestamp]: midnight after 9999-12-31. *)
Definition timestamp_limit : Z := _MAXORDINAL * 86400 * 1000000.

Definition in_range (n : Z) : Prop := 0 <= n < timestamp_limit.

(** When and only when the date arithmetic of the function leaves the
    datetime range. *)
Definition arithmetic_overflows
    (from_date to_date : option datetime) (window : option timedelta) : Prop :=
  exists (X : datetime) (W : timedelta),
    window = Some W /\ total_microseconds W <> 0
    /\ ((from_date = Some X /\ to_date = None
         /\ ~ in_range (timestamp X + total_microseconds W))
        \/ (from_date = None /\ to_date = Some X
            /\ ~ in_range (timestamp X - total_microseconds W))).

(** * Properties *)

(** ** Sample runs *)

Example ordinal_jan_1_2023 : ordinal jan_1_2023 = 738521.
Proof. reflexivity. Qed.

Example ordinal_datetime_max : ordinal datetime_max = _MAXORDINAL.
Proof. reflexivity. Qed.

Example forward_week :
  resolve_backfill_window (Some jan_1_2023) None (Some seven_days)
  = Ok (Some jan_1_2023, Some jan_8_2023).
Proof. reflexivity. Qed.

Example backward_week :
  resolve_backfill_window None (Some jan_8_2023) (Some seven_days)
  = Ok (Some jan_1_2023, Some jan_8_2023).
Proof. reflexivity. Qed.

Example all_three :
  resolve_backfill_window (Some jan_1_2023) (Some jan_8_2023) (Some seven_days)
  = Raise (BadParameter msg_any_two).
Proof. reflexivity. Qed.

Example no_arguments :
  resolve_backfill_window None None None = Raise (BadParameter msg_pairs).
Proof. reflexivity. Qed.

Example past_the_end :
  resolve_backfill_window (Some datetime_max) None (Some one_microsecond)
  = Raise OverflowError.
Proof. reflexivity. Qed.

Example before_the_start :
  resolve_backfill_window None (Some datetime_min) (Some one_microsecond)
  = Raise OverflowError.
Proof. reflexivity. Qed.

(** ** The [datetime] arithmetic *)

Ltac divmod := Z.div_mod_to_equations; lia.

Lemma timedelta_new_normal (d s us : Z) (a : timedelta) :
  timedelta_new d s us = Ok a ->
  timedelta_ok a
  /\ total_microseconds a = (d * 86400 + s) * 1000000 + us.
Proof.
  unfold timedelta_new, timedelta_ok, total_microseconds.
  destruct (Z.ltb_spec 999999999 (Z.abs (d + (s + us / 1000000) / 86400)));
    [discriminate|].
  intros E. injection E as <-. cbn [days seconds microseconds].
  repeat split; try divmod.
Qed.

Lemma timedelta_new_overflow (d s us : Z) :
  timedelta_new d s us = Raise OverflowError
  \/ exists a, timedelta_new d s us = Ok a.
Proof.
  unfold timedelta_new.
  destruct (999999999 <? Z.abs _); [left | right; eexists]; reflexivity.
Qed.
Lemma timedelta_of_datetime (t : datetime) :
  datetime_ok t ->
  timedelta_new (ordinal t) (hour t * 3600 + minute t * 60 + second t)
                (microsecond t)
  = Ok (mk_timedelta (ordinal t) (hour t * 3600 + minute t * 60 + second t)
                     (microsecond t)).
Proof.
  unfold datetime_ok, _MAXORDINAL. intros (Ho & Hh & Hm & Hs & Hu).
  unfold timedelta_new.
  rewrite (Z.div_small (microsecond t)), (Z.mod_small (microsecond t)) by lia.
  rewrite Z.add_0_r.
  rewrite Z.div_small, Z.mod_small, Z.add_0_r by lia.
  destruct (Z.ltb_spec 999999999 (Z.abs (ordinal t))); [lia | reflexivity].
Qed.

Lemma datetime_add_spec (t : datetime) (d : timedelta) :
  datetime_ok t -> timedelta_ok d ->
  (in_range (timestamp t + total_microseconds d) ->
   exists t', datetime_add t d = Ok t'
              /\ datetime_ok t'
              /\ timestamp t' = timestamp t + total_microseconds d
              /\ tz t' = tz t)
  /\ (~ in_range (timestamp t + total_microseconds d) ->
      datetime_add t d = Raise OverflowError).
Proof.
  intros Ht Hd. unfold datetime_add.
  rewrite (timedelta_of_datetime t Ht). cbn [bind].
  unfold timedelta_add. cbn [days seconds microseconds].
  destruct Ht as (Ho & Hh & Hm & Hs & Hu). destruct Hd as (Hdd & Hds & Hdu).
  unfold in_range, timestamp_limit, timestamp, total_microseconds, _MAXORDINAL in *.
  destruct (timedelta_new _ _ _) as [delta | e] eqn:E.
  - apply timedelta_new_normal in E. destruct E as ((Ed & Es & Eu) & Etot).
    unfold total_microseconds in Etot. cbn [bind].
    destruct (Z.ltb_spec 0 (days delta)); destruct (Z.leb_spec (days delta) 3652059);
      cbn [andb]; split; intros R; try lia; try reflexivity.
    eexists; split; [reflexivity|].
    unfold datetime_ok, _MAXORDINAL. cbn [ordinal hour minute second microsecond tz].
    repeat split; try lia; try divmod.
  - unfold timedelta_new in E.
    destruct (Z.ltb_spec 999999999 (Z.abs (ordinal t + days d
              + (hour t * 3600 + minute t * 60 + second t + seconds d
                 + (microsecond t + microseconds d) / 1000000) / 86400)));
      [| discriminate].
    injection E as <-. cbn [bind].
    split; intros R; [exfalso | reflexivity].
    revert H. divmod.
Qed.

Lemma datetime_sub_spec (t : datetime) (d : timedelta) :
  datetime_ok t -> timedelta_ok d ->
  (in_range (timestamp t - total_microseconds d) ->
   exists t', datetime_sub t d = Ok t'
              /\ datetime_ok t'
              /\ timestamp t' = timestamp t - total_microseconds d
              /\ tz t' = tz t)
  /\ (~ in_range (timestamp t - total_microseconds d) ->
      datetime_sub t d = Raise OverflowError).
Proof.
  intros Ht Hd. unfold datetime_sub, timedelta_neg.
  destruct (timedelta_new _ _ _) as [neg | e] eqn:E; cbn [bind].
  - apply timedelta_new_normal in E. destruct E as (Hneg & Etot).
    replace (timestamp t - total_microseconds d)
      with (timestamp t + total_microseconds neg)
      by (rewrite Etot; unfold total_microseconds; lia).
    apply datetime_add_spec; assumption.
  - unfold timedelta_new in E.
    destruct (Z.ltb_spec 999999999 (Z.abs (- days d
              + (- seconds d + - microseconds d / 1000000) / 86400)));
      [| discriminate].
    injection E as <-.
    split; intros R; [exfalso | reflexivity].
    destruct Ht as (Ho & Hh & Hm & Hs & Hu). destruct Hd as (Hdd & Hds & Hdu).
    unfold in_range, timestamp_limit, timestamp, total_microseconds,
      _MAXORDINAL in *.
    revert H. divmod.
Qed.

(** A normalised duration is false exactly when it spans no time. *)
Lemma timedelta_bool_false (d : timedelta) :
  timedelta_ok d ->
  timedelta_bool d = false <-> total_microseconds d = 0.
Proof.
  intros (Hd & Hs & Hu). unfold timedelta_bool, total_microseconds.
  destruct (Z.eqb_spec (days d) 0), (Z.eqb_spec (seconds d) 0),
    (Z.eqb_spec (microseconds d) 0); cbn; split; intros; try lia; try discriminate.
Qed.

Lemma timestamp_order (a b : datetime) :
  datetime_ok a -> datetime_ok b ->
  datetime_gt a b = true <-> timestamp b < timestamp a.
Proof.
  intros (Ho & Hh & Hm & Hs & Hu) (Ho' & Hh' & Hm' & Hs' & Hu').
  unfold datetime_gt, base_compare, timestamp.
  destruct (Z.compare_spec (ordinal a) (ordinal b));
    [destruct (Z.compare_spec (hour a) (hour b));
      [destruct (Z.compare_spec (minute a) (minute b));
        [destruct (Z.compare_spec (second a) (second b));
          [destruct (Z.compare_spec (microsecond a) (microsecond b))|..]|..]|..]|..];
    split; intros; try discriminate; try reflexivity; try lia.
Qed.

Lemma in_range_dec (n : Z) : {in_range n} + {~ in_range n}.
Proof.
  unfold in_range.
  destruct (Z_le_dec 0 n), (Z_lt_dec n timestamp_limit);
    (left; lia) || (right; lia).
Defined.

Lemma forward_cases (t : datetime) (d : timedelta) :
  datetime_ok t -> timedelta_ok d ->
  (in_range (timestamp t + total_microseconds d)
   /\ exists t', datetime_add t d = Ok t')
  \/ (~ in_range (timestamp t + total_microseconds d)
      /\ datetime_add t d = Raise OverflowError).
Proof.
  intros Ht Hd. destruct (datetime_add_spec t d Ht Hd) as [Hin Hout].
  destruct (in_range_dec (timestamp t + total_microseconds d)) as [R | R].
  - left. split; [assumption|].
    destruct (Hin R) as (t' & E & _). exists t'. exact E.
  - right. split; auto.
Qed.

Lemma backward_cases (t : datetime) (d : timedelta) :
  datetime_ok t -> timedelta_ok d ->
  (in_range (timestamp t - total_microseconds d)
   /\ exists t', datetime_sub t d = Ok t')
  \/ (~ in_range (timestamp t - total_microseconds d)
      /\ datetime_sub t d = Raise OverflowError).
Proof.
  intros Ht Hd. destruct (datetime_sub_spec t d Ht Hd) as [Hin Hout].
  destruct (in_range_dec (timestamp t - total_microseconds d)) as [R | R].
  - left. split; [assumption|].
    destruct (Hin R) as (t' & E & _). exists t'. exact E.
  - right. split; auto.
Qed.

Lemma timedelta_bool_true (d : timedelta) :
  timedelta_ok d ->
  timedelta_bool d = true <-> total_microseconds d <> 0.
Proof.
  intros Hd. pose proof (timedelta_bool_false d Hd) as [H1 H2].
  destruct (timedelta_bool d); split; intros H;
    try reflexivity; try discriminate.
  - intros E. specialize (H2 E). discriminate.
  - exfalso. apply H, H1. reflexivity.
Qed.

(** ** The error kinds *)

Lemma kinds_disjoint {A : Type} (r : result A) :
  ~ (ConflictingArguments r /\ InsufficientArguments r).
Proof.
  unfold ConflictingArguments, InsufficientArguments.
  intros [-> [E | E]]; discriminate E.
Qed.

(** Closes a goal about sample values by evaluation. *)
Ltac evaluate := vm_compute; intuition congruence.

(** ** The failure rules *)

(** C1, as stated, does not hold: with both dates and a zero-length
    window, all three arguments are present and yet the call returns the
    two dates. *)
Lemma zero_window_with_both_dates_returns :
  resolve_backfill_window (Some jan_1_2023) (Some jan_8_2023)
                          (Some zero_duration)
  = Ok (Some jan_1_2023, Some jan_8_2023)
  /\ ~ ConflictingArguments
         (resolve_backfill_window (Some jan_1_2023) (Some jan_8_2023)
                                  (Some zero_duration)).
Proof.
  split; [reflexivity|].
  unfold ConflictingArguments. discriminate.
Qed.

(** C1, amended: when from_date, to_date and window are all present and
    the window is not the zero duration, the call fails with
    ConflictingArguments, whatever the three values are. *)
Theorem all_three_present_conflict (F T : datetime) (W : timedelta) :
  timedelta_ok W -> total_microseconds W <> 0 ->
  ConflictingArguments (resolve_backfill_window (Some F) (Some T) (Some W)).
Proof.
  intros HW Hnz. apply (timedelta_bool_true W HW) in Hnz.
  unfold ConflictingArguments, resolve_backfill_window.
  cbn. unfold truth, Truthy_timedelta. rewrite Hnz. reflexivity.
Qed.

Lemma all_three_present_conflict_run :
  ConflictingArguments
    (resolve_backfill_window (Some jan_1_2023) (Some jan_8_2023)
                             (Some seven_days)).
Proof.
  apply (all_three_present_conflict jan_1_2023 jan_8_2023 seven_days).
  - evaluate.
  - evaluate.
Defined.

(** C3: with both from_date and to_date absent the call fails with
    InsufficientArguments, whether or not a window is given and whatever
    its value. *)
Theorem no_dates_insufficient (window : option timedelta) :
  resolve_backfill_window None None window = Raise (BadParameter msg_pairs)
  /\ InsufficientArguments (resolve_backfill_window None None window).
Proof.
  assert (E : resolve_backfill_window None None window
              = Raise (BadParameter msg_pairs)) by reflexivity.
  split; [exact E | left; exact E].
Qed.

(** C4: with exactly one of from_date / to_date present and no window the
    call fails with InsufficientArguments. *)
Theorem one_date_no_window_insufficient (T : datetime) :
  InsufficientArguments (resolve_backfill_window (Some T) None None)
  /\ InsufficientArguments (resolve_backfill_window None (Some T) None).
Proof.
  split; right; reflexivity.
Qed.

(** C5: with both dates present and a window that does not fire the
    first test of the function (the all-three rule), the call succeeds and
    returns the two dates unchanged. *)
Theorem both_dates_returned_unchanged
    (F T : datetime) (window : option timedelta) :
  truth (Some F) && truth (Some T) && truth window = false ->
  resolve_backfill_window (Some F) (Some T) window = Ok (Some F, Some T).
Proof.
  intros H. unfold resolve_backfill_window. rewrite H. reflexivity.
Qed.

Lemma both_dates_returned_unchanged_run :
  resolve_backfill_window (Some jan_1_2023) (Some jan_8_2023) None
  = Ok (Some jan_1_2023, Some jan_8_2023).
Proof.
  apply (both_dates_returned_unchanged jan_1_2023 jan_8_2023 None).
  reflexivity.
Defined.

(** ** Equations of the function on each shape of input *)

Lemma truth_window (W : timedelta) : truth (Some W) = timedelta_bool W.
Proof. reflexivity. Qed.

Lemma resolve_forward (T : datetime) (D : timedelta) :
  timedelta_bool D = true ->
  resolve_backfill_window (Some T) None (Some D)
  = (to_date <- datetime_add T D ;; Ok (Some T, Some to_date)).
Proof.
  intros H. unfold resolve_backfill_window. rewrite truth_window, H.
  reflexivity.
Qed.

Lemma resolve_backward (T : datetime) (D : timedelta) :
  timedelta_bool D = true ->
  resolve_backfill_window None (Some T) (Some D)
  = (from_date <- datetime_sub T D ;; Ok (Some from_date, Some T)).
Proof.
  intros H. unfold resolve_backfill_window. rewrite truth_window, H.
  reflexivity.
Qed.

Lemma resolve_falsy_window (from_date to_date : option datetime) (W : timedelta) :
  timedelta_bool W = false ->
  resolve_backfill_window from_date to_date (Some W)
  = resolve_backfill_window from_date to_date None.
Proof.
  intros H. unfold resolve_backfill_window. rewrite truth_window, H.
  change (truth (@None timedelta)) with false.
  destruct (truth from_date), (truth to_date); reflexivity.
Qed.

(** ** The date arithmetic *)

(** C2, as stated, does not hold for every present duration: with only
    from_date and a zero-length window the call fails instead of returning
    (T, T + 0) = (T, T). *)
Lemma zero_window_with_one_date_fails :
  datetime_add jan_1_2023 zero_duration = Ok jan_1_2023
  /\ resolve_backfill_window (Some jan_1_2023) None (Some zero_duration)
     = Raise (BadParameter msg_with_duration)
  /\ resolve_backfill_window (Some jan_1_2023) None (Some zero_duration)
     <> Ok (Some jan_1_2023, Some jan_1_2023).
Proof.
  split; [reflexivity | split; [reflexivity | discriminate]].
Qed.

(** C2, amended: for every datetime T and every duration D other than
    the zero duration, when T + D lies in the datetime range the call with
    only from_date = T and window = D returns (T, T + D), and when T - D
    lies in the datetime range the call with only to_date = T and
    window = D returns (T - D, T).  The computed date is the one Python's
    own operator gives; it is D microseconds after (before) T and keeps
    T's tzinfo. *)
Theorem single_date_arithmetic (T : datetime) (D : timedelta) :
  datetime_ok T -> timedelta_ok D -> total_microseconds D <> 0 ->
  (in_range (timestamp T + total_microseconds D) ->
   exists T', datetime_add T D = Ok T'
              /\ resolve_backfill_window (Some T) None (Some D)
                 = Ok (Some T, Some T')
              /\ datetime_ok T'
              /\ timestamp T' = timestamp T + total_microseconds D
              /\ tz T' = tz T)
  /\ (in_range (timestamp T - total_microseconds D) ->
      exists T', datetime_sub T D = Ok T'
                 /\ resolve_backfill_window None (Some T) (Some D)
                    = Ok (Some T', Some T)
                 /\ datetime_ok T'
                 /\ timestamp T' = timestamp T - total_microseconds D
                 /\ tz T' = tz T).
Proof.
  intros HT HD Hnz. apply (timedelta_bool_true D HD) in Hnz.
  split; intros R.
  - destruct (datetime_add_spec T D HT HD) as [Hin _].
    destruct (Hin R) as (T' & E & Hok & Hts & Htz).
    exists T'. split; [exact E | split; [| auto]].
    rewrite (resolve_forward T D Hnz), E. reflexivity.
  - destruct (datetime_sub_spec T D HT HD) as [Hin _].
    destruct (Hin R) as (T' & E & Hok & Hts & Htz).
    exists T'. split; [exact E | split; [| auto]].
    rewrite (resolve_backward T D Hnz), E. reflexivity.
Qed.

Lemma single_date_arithmetic_run :
  exists T',
    resolve_backfill_window (Some jan_1_2023) None (Some seven_days)
    = Ok (Some jan_1_2023, Some T')
    /\ timestamp T' = timestamp jan_1_2023 + total_microseconds seven_days.
Proof.
  assert (HT : datetime_ok jan_1_2023) by evaluate.
  assert (HD : timedelta_ok seven_days) by evaluate.
  assert (Hnz : total_microseconds seven_days <> 0) by evaluate.
  assert (R : in_range (timestamp jan_1_2023 + total_microseconds seven_days))
    by evaluate.
  destruct (single_date_arithmetic jan_1_2023 seven_days HT HD Hnz) as [Hf _].
  destruct (Hf R) as (T' & _ & E & _ & Hts & _).
  exists T'. split; assumption.
Defined.

(** Outside the range the arithmetic raises, also through the function. *)
Lemma single_date_overflow (T : datetime) (D : timedelta) :
  datetime_ok T -> timedelta_ok D -> total_microseconds D <> 0 ->
  (~ in_range (timestamp T + total_microseconds D) ->
   resolve_backfill_window (Some T) None (Some D) = Raise OverflowError)
  /\ (~ in_range (timestamp T - total_microseconds D) ->
      resolve_backfill_window None (Some T) (Some D) = Raise OverflowError).
Proof.
  intros HT HD Hnz. apply (timedelta_bool_true D HD) in Hnz.
  split; intros R.
  - destruct (datetime_add_spec T D HT HD) as [_ Hout].
    rewrite (resolve_forward T D Hnz), (Hout R). reflexivity.
  - destruct (datetime_sub_spec T D HT HD) as [_ Hout].
    rewrite (resolve_backward T D Hnz), (Hout R). reflexivity.
Qed.

(** C8: the returned pair need not be ordered.  With only from_date and
    a negative window the call returns a from_date strictly later than the
    to_date. *)
Theorem returned_pair_may_be_inverted :
  exists (F T : datetime) (W : timedelta),
    datetime_ok F /\ timedelta_ok W /\ total_microseconds W < 0
    /\ resolve_backfill_window (Some F) None (Some W) = Ok (Some F, Some T)
    /\ datetime_gt F T = true.
Proof.
  exists jan_8_2023, jan_1_2023, minus_seven_days.
  repeat split; evaluate.
Qed.

(** Every negative window inverts the pair, not only the sample one. *)
Lemma negative_window_inverts (F T : datetime) (W : timedelta) :
  datetime_ok F -> timedelta_ok W -> total_microseconds W < 0 ->
  resolve_backfill_window (Some F) None (Some W) = Ok (Some F, Some T) ->
  datetime_gt F T = true.
Proof.
  intros HF HW Hneg E.
  assert (Hnz : timedelta_bool W = true)
    by (apply (timedelta_bool_true W HW); lia).
  rewrite (resolve_forward F W Hnz) in E.
  destruct (in_range_dec (timestamp F + total_microseconds W)) as [R | R].
  - destruct (datetime_add_spec F W HF HW) as [Hin _].
    destruct (Hin R) as (T' & E' & Hok & Hts & _).
    rewrite E' in E. injection E as <-.
    apply timestamp_order; try assumption. lia.
  - destruct (datetime_add_spec F W HF HW) as [_ Hout].
    rewrite (Hout R) in E. discriminate.
Qed.

(** ** A zero-length window *)

(** C9: a window that is supplied but spans no time is treated as if it
    were absent.  With both dates the call returns them (no
    ConflictingArguments); with exactly one date it fails with
    InsufficientArguments and no date is computed. *)
Theorem zero_window_is_absent (W : timedelta) :
  timedelta_ok W -> total_microseconds W = 0 ->
  (forall from_date to_date,
      resolve_backfill_window from_date to_date (Some W)
      = resolve_backfill_window from_date to_date None)
  /\ (forall F T,
         resolve_backfill_window (Some F) (Some T) (Some W)
         = Ok (Some F, Some T))
  /\ (forall T,
         InsufficientArguments (resolve_backfill_window (Some T) None (Some W))
         /\ InsufficientArguments
              (resolve_backfill_window None (Some T) (Some W))).
Proof.
  intros HW Hz. apply (timedelta_bool_false W HW) in Hz.
  assert (Habs : forall from_date to_date,
             resolve_backfill_window from_date to_date (Some W)
             = resolve_backfill_window from_date to_date None)
    by (intros f t; apply resolve_falsy_window, Hz).
  split; [exact Habs | split].
  - intros F T. rewrite Habs. reflexivity.
  - intros T. rewrite !Habs. split; right; reflexivity.
Qed.

Lemma zero_window_is_absent_run :
  resolve_backfill_window (Some jan_1_2023) (Some jan_8_2023)
                          (Some zero_duration)
  = Ok (Some jan_1_2023, Some jan_8_2023).
Proof.
  assert (HW : timedelta_ok zero_duration) by evaluate.
  assert (Hz : total_microseconds zero_duration = 0) by reflexivity.
  destruct (zero_window_is_absent zero_duration HW Hz) as (_ & Hboth & _).
  apply Hboth.
Defined.

(** ** Every outcome of the function *)

(** C6, as stated, does not hold: one microsecond past the last
    representable instant the call fails with OverflowError, which is
    neither a returned pair nor one of the two argument errors. *)
Lemma overflow_is_another_outcome :
  resolve_backfill_window (Some datetime_max) None (Some one_microsecond)
  = Raise OverflowError
  /\ ~ ((exists p, resolve_backfill_window (Some datetime_max) None
                                           (Some one_microsecond) = Ok p)
        \/ ConflictingArguments
             (resolve_backfill_window (Some datetime_max) None
                                      (Some one_microsecond))
        \/ InsufficientArguments
             (resolve_backfill_window (Some datetime_max) None
                                      (Some one_microsecond))).
Proof.
  split; [reflexivity|].
  unfold ConflictingArguments, InsufficientArguments.
  intros [[p E] | [E | [E | E]]]; discriminate E.
Qed.

(** C6, amended: over optional triples of well-formed values the call
    always ends, in one of four ways: it returns a pair of two dates, or
    fails with ConflictingArguments, or fails with InsufficientArguments,
    or fails with OverflowError.  The last happens exactly when one date
    is given with a non-zero window and the computed date falls outside
    the datetime range.  The two argument errors exclude each other. *)
Theorem resolve_outcomes
    (from_date to_date : option datetime) (window : option timedelta) :
  (forall F, from_date = Some F -> datetime_ok F) ->
  (forall T, to_date = Some T -> datetime_ok T) ->
  (forall W, window = Some W -> timedelta_ok W) ->
  let r := resolve_backfill_window from_date to_date window in
  ((exists F T, r = Ok (Some F, Some T))
   \/ ConflictingArguments r
   \/ InsufficientArguments r
   \/ r = Raise OverflowError)
  /\ (r = Raise OverflowError
      <-> arithmetic_overflows from_date to_date window)
  /\ ~ (ConflictingArguments r /\ InsufficientArguments r).
Proof.
  intros HF HT HW r.
  split; [| split; [| apply kinds_disjoint]].
  - subst r. destruct from_date as [F|], to_date as [T|].
    + destruct window as [W|]; [destruct (timedelta_bool W) eqn:B|].
      * right; left. unfold ConflictingArguments, resolve_backfill_window.
        rewrite truth_window, B. reflexivity.
      * left. exists F, T. rewrite (resolve_falsy_window _ _ W B). reflexivity.
      * left. exists F, T. reflexivity.
    + destruct window as [W|]; [destruct (timedelta_bool W) eqn:B|].
      * rewrite (resolve_forward F W B).
        destruct (forward_cases F W (HF F eq_refl) (HW W eq_refl))
          as [(_ & T' & E) | (_ & E)]; rewrite E.
        -- left. exists F, T'. reflexivity.
        -- right; right; right. reflexivity.
      * right; right; left. rewrite (resolve_falsy_window _ _ W B).
        right. reflexivity.
      * right; right; left. right. reflexivity.
    + destruct window as [W|]; [destruct (timedelta_bool W) eqn:B|].
      * rewrite (resolve_backward T W B).
        destruct (backward_cases T W (HT T eq_refl) (HW W eq_refl))
          as [(_ & T' & E) | (_ & E)]; rewrite E.
        -- left. exists T', T. reflexivity.
        -- right; right; right. reflexivity.
      * right; right; left. rewrite (resolve_falsy_window _ _ W B).
        right. reflexivity.
      * right; right; left. right. reflexivity.
    + right; right; left. left. reflexivity.
  - subst r. unfold arithmetic_overflows. split.
    + intros E. destruct from_date as [F|], to_date as [T|].
      * exfalso. destruct window as [W|]; [destruct (timedelta_bool W) eqn:B|].
        -- unfold resolve_backfill_window in E.
           rewrite truth_window, B in E. discriminate E.
        -- rewrite (resolve_falsy_window _ _ W B) in E. discriminate E.
        -- discriminate E.
      * destruct window as [W|]; [destruct (timedelta_bool W) eqn:B|].
        -- exists F, W. split; [reflexivity|].
           split; [apply (timedelta_bool_true W (HW W eq_refl)), B|].
           left. repeat split.
           rewrite (resolve_forward F W B) in E.
           destruct (forward_cases F W (HF F eq_refl) (HW W eq_refl))
             as [(_ & T' & E') | (R & _)]; [| exact R].
           rewrite E' in E. discriminate E.
        -- rewrite (resolve_falsy_window _ _ W B) in E. discriminate E.
        -- discriminate E.
      * destruct window as [W|]; [destruct (timedelta_bool W) eqn:B|].
        -- exists T, W. split; [reflexivity|].
           split; [apply (timedelta_bool_true W (HW W eq_refl)), B|].
           right. repeat split.
           rewrite (resolve_backward T W B) in E.
           destruct (backward_cases T W (HT T eq_refl) (HW W eq_refl))
             as [(_ & T' & E') | (R & _)]; [| exact R].
           rewrite E' in E. discriminate E.
        -- rewrite (resolve_falsy_window _ _ W B) in E. discriminate E.
        -- discriminate E.
      * discriminate E.
    + intros (X & W & -> & Hnz & [(-> & -> & R) | (-> & -> & R)]);
        pose proof (HW W eq_refl) as HWok;
        apply (timedelta_bool_true W HWok) in Hnz.
      * rewrite (resolve_forward X W Hnz).
        destruct (datetime_add_spec X W (HF X eq_refl) HWok) as [_ Hout].
        rewrite (Hout R). reflexivity.
      * rewrite (resolve_backward X W Hnz).
        destruct (datetime_sub_spec X W (HT X eq_refl) HWok) as [_ Hout].
        rewrite (Hout R). reflexivity.
Qed.

Lemma resolve_outcomes_run :
  arithmetic_overflows (Some datetime_max) None (Some one_microsecond).
Proof.
  assert (HF : forall F, Some datetime_max = Some F -> datetime_ok F)
    by (intros F [= <-]; evaluate).
  assert (HT : forall T, @None datetime = Some T -> datetime_ok T)
    by (intros T [=]).
  assert (HW : forall W, Some one_microsecond = Some W -> timedelta_ok W)
    by (intros W [= <-]; evaluate).
  destruct (resolve_outcomes (Some datetime_max) None (Some one_microsecond)
                             HF HT HW) as (_ & [Hover _] & _).
  apply Hover. reflexivity.
Defined.

(** ** The function as a call *)

Lemma call_resolve_backfill_window_spec
    (World : Type) (from_date to_date : option datetime)
    (window : option timedelta) (w : World) :
  call_resolve_backfill_window World from_date to_date window w
  = (w, resolve_backfill_window from_date to_date window).
Proof.
  destruct from_date as [F|], to_date as [T|], window as [W|];
    cbv [call_resolve_backfill_window resolve_backfill_window_body
         resolve_backfill_window stmt_bind eval compute raise ret
         assign_to_date assign_from_date locals world
         f_from_date f_to_date f_window
         truth Truthy_option Truthy_datetime Truthy_timedelta
         andb orb negb add_opt sub_opt bind];
    try reflexivity;
    destruct (timedelta_bool W); try reflexivity.
  - destruct (datetime_add F W); reflexivity.
  - destruct (datetime_sub T W); reflexivity.
Qed.


(** The statement above is not one that every body satisfies: a body
    that writes to the rest of the interpreter, or reads it, fails the
    first or the second part. *)
Example effect_is_seen :
  fst (stmt_bind (effect Z.succ) (fun _ => ret tt) (mk_state Z 0 (mk_frame None None None)))
  <> mk_state Z 0 (mk_frame None None None).
Proof. discriminate. Qed.

Example observation_is_seen :
  snd (observe (fun now : Z => now) (mk_state Z 0 (mk_frame None None None)))
  <> snd (observe (fun now : Z => now) (mk_state Z 1 (mk_frame None None None))).
Proof. discriminate. Qed.

(** ** The command *)

Lemma bind_pure_ok {A B : Type} (a : A) (k : A -> run B) :
  run_bind (pure (Ok a)) k = k a.
Proof. unfold run_bind, pure. destruct (k a). reflexivity. Qed.

Lemma bind_pure_raise {A B : Type} (e : exn) (k : A -> run B) :
  run_bind (pure (Raise e)) k = ([], Raise e).
Proof. reflexivity. Qed.

Lemma trace_bind_call {A B : Type} (ev : event) (r : result A) (k : A -> run B) :
  exists rest, trace (run_bind (call ev r) k) = ev :: rest.
Proof.
  unfold run_bind, call. destruct r as [a | e].
  - destruct (k a) as [tr r]. exists tr. reflexivity.
  - exists []. reflexivity.
Qed.

Section Command.

Variables ClickContext Remote Entity : Type.
Variable get_remote : ClickContext -> string -> string -> result Remote.
Variable launch_backfill : Remote -> launch_request -> run (option Entity).
Variable generate_console_url : Remote -> Entity -> result string.
Variable click_secho : string -> option string -> result unit.

Variables (ctx : ClickContext) (project domain : string).
Variables (from_date to_date : option datetime).
Variable backfill_window : option timedelta.
Variables (launchplan : string) (launchplan_version : option string).
Variables dry_run no_execute parallel : bool.
Variables execution_name version : option string.

(** Once the window is resolved the command does go to the network:
    the first thing it does is ask for the remote client. *)
Lemma backfill_reaches_remote (F T : option datetime) :
  resolve_backfill_window from_date to_date backfill_window = Ok (F, T) ->
  exists rest,
    trace (backfill get_remote launch_backfill generate_console_url click_secho
                ctx project domain from_date to_date backfill_window
                launchplan launchplan_version dry_run no_execute parallel
                execution_name version)
    = RemoteRequested project domain :: rest.
Proof.
  intros E. unfold backfill. rewrite E, bind_pure_ok.
  apply trace_bind_call.
Qed.

(** C7: when the window cannot be resolved the command stops there, with
    the resolver's error and without a single event: the remote client is
    not built and launch_backfill is not called, so nothing is sent to
    the network. *)
Theorem backfill_aborts_before_network (e : exn) :
  resolve_backfill_window from_date to_date backfill_window = Raise e ->
  backfill get_remote launch_backfill generate_console_url click_secho
           ctx project domain from_date to_date backfill_window
           launchplan launchplan_version dry_run no_execute parallel
           execution_name version
  = ([], Raise e)
  /\ existsb is_network_call
       (trace (backfill get_remote launch_backfill generate_console_url
                     click_secho
                     ctx project domain from_date to_date backfill_window
                     launchplan launchplan_version dry_run no_execute parallel
                     execution_name version))
     = false.
Proof.
  intros E. unfold backfill. rewrite E, bind_pure_raise.
  split; reflexivity.
Qed.

End Command.

Lemma backfill_aborts_before_network_run :
  backfill (fun (_ : unit) _ _ => Ok tt)
           (fun (_ : unit) _ => ([], Ok (Some tt)))
           (fun (_ : unit) (_ : unit) => Ok "http://localhost:30080/console")
           (fun _ _ => Ok tt)
           tt "flytesnacks" "development" None None (Some seven_days)
           "daily" None false false false None None
  = ([], Raise (BadParameter msg_pairs)).
Proof.
  apply (backfill_aborts_before_network unit unit unit
           (fun _ _ _ => Ok tt) (fun _ _ => ([], Ok (Some tt)))
           (fun _ _ => Ok "http://localhost:30080/console")
           (fun _ _ => Ok tt)
           tt "flytesnacks" "development" None None (Some seven_days)
           "daily" None false false false None None
           (BadParameter msg_pairs)).
  reflexivity.
Defined.

(** * Further properties *)

(** ** More on the [datetime] arithmetic *)

Lemma datetime_add_raises (t : datetime) (d : timedelta) (e : exn) :
  datetime_add t d = Raise e -> e = OverflowError.
Proof.
  unfold datetime_add, timedelta_add.
  destruct (timedelta_new_overflow (ordinal t)
              (hour t * 3600 + minute t * 60 + second t) (microsecond t))
    as [E | [a E]]; rewrite E; cbn [bind].
  - intros [= <-]. reflexivity.
  - destruct (timedelta_new_overflow (days a + days d)
                (seconds a + seconds d) (microseconds a + microseconds d))
      as [E' | [b E']]; rewrite E'; cbn [bind].
    + intros [= <-]. reflexivity.
    + destruct ((0 <? days b) && (days b <=? _MAXORDINAL)).
      * discriminate.
      * intros [= <-]. reflexivity.
Qed.

Lemma datetime_sub_raises (t : datetime) (d : timedelta) (e : exn) :
  datetime_sub t d = Raise e -> e = OverflowError.
Proof.
  unfold datetime_sub, timedelta_neg.
  destruct (timedelta_new_overflow (- days d) (- seconds d) (- microseconds d))
    as [E | [a E]]; rewrite E; cbn [bind].
  - intros [= <-]. reflexivity.
  - apply datetime_add_raises.
Qed.

Lemma datetime_add_attributes (t t' : datetime) (d : timedelta) :
  datetime_add t d = Ok t' -> tz t' = tz t /\ fold t' = false.
Proof.
  unfold datetime_add.
  destruct (timedelta_new _ _ _) as [a |]; cbn [bind]; [| discriminate].
  destruct (timedelta_add a d) as [b |]; cbn [bind]; [| discriminate].
  destruct ((0 <? days b) && (days b <=? _MAXORDINAL)); [| discriminate].
  intros [= <-]. split; reflexivity.
Qed.

Lemma datetime_sub_attributes (t t' : datetime) (d : timedelta) :
  datetime_sub t d = Ok t' -> tz t' = tz t /\ fold t' = false.
Proof.
  unfold datetime_sub.
  destruct (timedelta_neg d) as [n |]; cbn [bind]; [| discriminate].
  apply datetime_add_attributes.
Qed.

Lemma timestamp_in_range (t : datetime) :
  datetime_ok t -> in_range (timestamp t).
Proof.
  unfold datetime_ok, in_range, timestamp, timestamp_limit, _MAXORDINAL.
  lia.
Qed.

(** Two well-formed values with the same reading, zone and fold are the
    same value. *)
Lemma timestamp_injective (a b : datetime) :
  datetime_ok a -> datetime_ok b ->
  timestamp a = timestamp b -> tz a = tz b -> fold a = fold b -> a = b.
Proof.
  destruct a as [oa ha ma sa ua tza fa], b as [ob hb mb sb ub tzb fb].
  unfold datetime_ok, timestamp, _MAXORDINAL.
  cbn [ordinal hour minute second microsecond tz fold].
  intros Ha Hb E -> ->.
  assert (oa = ob) by lia. subst ob.
  assert (ha = hb) by lia. subst hb.
  assert (ma = mb) by lia. subst mb.
  assert (sa = sb) by lia. subst sb.
  assert (ua = ub) by lia. subst ub.
  reflexivity.
Qed.

(** ** Reading a call backwards *)

Lemma messages_distinct :
  msg_any_two <> msg_pairs /\ msg_any_two <> msg_with_duration
  /\ msg_pairs <> msg_with_duration.
Proof. repeat split; discriminate. Qed.

(** What a returned pair says about the arguments. *)
Lemma resolve_ok_inv from_date to_date window a b :
  resolve_backfill_window from_date to_date window = Ok (a, b) ->
  (exists F T, from_date = Some F /\ to_date = Some T /\ truth window = false
               /\ a = Some F /\ b = Some T)
  \/ (exists F W T', from_date = Some F /\ to_date = None /\ window = Some W
                     /\ timedelta_bool W = true /\ datetime_add F W = Ok T'
                     /\ a = Some F /\ b = Some T')
  \/ (exists T W F', from_date = None /\ to_date = Some T /\ window = Some W
                     /\ timedelta_bool W = true /\ datetime_sub T W = Ok F'
                     /\ a = Some F' /\ b = Some T).
Proof.
  destruct from_date as [F|], to_date as [T|];
    (destruct window as [W|]; [destruct (timedelta_bool W) eqn:B|]);
    try rewrite (resolve_falsy_window _ _ W B);
    try (cbn; discriminate).
  - unfold resolve_backfill_window. rewrite truth_window, B. discriminate.
  - cbn. intros [= <- <-]. left. exists F, T. repeat split. exact B.
  - cbn. intros [= <- <-]. left. exists F, T. repeat split.
  - rewrite (resolve_forward F W B).
    destruct (datetime_add F W) as [T' |] eqn:E; cbn [bind]; [| discriminate].
    intros [= <- <-]. right; left. exists F, W, T'. auto 10.
  - rewrite (resolve_backward T W B).
    destruct (datetime_sub T W) as [F' |] eqn:E; cbn [bind]; [| discriminate].
    intros [= <- <-]. right; right. exists T, W, F'. auto 10.
Qed.

(** What a failure says about the arguments. *)
Lemma resolve_raise_inv from_date to_date window e :
  resolve_backfill_window from_date to_date window = Raise e ->
  (e = BadParameter msg_any_two
   /\ from_date <> None /\ to_date <> None /\ truth window = true)
  \/ (e = BadParameter msg_pairs /\ from_date = None /\ to_date = None)
  \/ (e = BadParameter msg_with_duration
      /\ (from_date = None <-> to_date <> None) /\ truth window = false)
  \/ (e = OverflowError
      /\ (from_date = None <-> to_date <> None) /\ truth window = true).
Proof.
  assert (X1 : forall T : datetime, @None datetime = None <-> Some T <> None)
    by (intros T; split; [discriminate | reflexivity]).
  assert (X2 : forall F : datetime, Some F = None <-> @None datetime <> None)
    by (intros F; split; [discriminate | intros H; exfalso; apply H; reflexivity]).
  destruct from_date as [F|], to_date as [T|];
    (destruct window as [W|]; [destruct (timedelta_bool W) eqn:B|]);
    try rewrite (resolve_falsy_window _ _ W B);
    try (cbn; discriminate).
  - unfold resolve_backfill_window. rewrite truth_window, B.
    intros [= <-]. left.
    repeat split; try discriminate; exact B.
  - rewrite (resolve_forward F W B).
    destruct (datetime_add F W) as [T' |] eqn:E; cbn [bind]; [discriminate|].
    intros [= <-]. apply datetime_add_raises in E. subst.
    right; right; right. split; [reflexivity | split; [first [apply X1 | apply X2] | first [exact B | reflexivity]]].
  - cbn. intros [= <-]. right; right; left. split; [reflexivity | split; [first [apply X1 | apply X2] | first [exact B | reflexivity]]].
  - cbn. intros [= <-]. right; right; left. split; [reflexivity | split; [first [apply X1 | apply X2] | first [exact B | reflexivity]]].
  - rewrite (resolve_backward T W B).
    destruct (datetime_sub T W) as [F' |] eqn:E; cbn [bind]; [discriminate|].
    intros [= <-]. apply datetime_sub_raises in E. subst.
    right; right; right. split; [reflexivity | split; [first [apply X1 | apply X2] | first [exact B | reflexivity]]].
  - cbn. intros [= <-]. right; right; left. split; [reflexivity | split; [first [apply X1 | apply X2] | first [exact B | reflexivity]]].
  - cbn. intros [= <-]. right; right; left. split; [reflexivity | split; [first [apply X1 | apply X2] | first [exact B | reflexivity]]].
  - cbn. intros [= <-]. right; left. repeat split.
  - cbn. intros [= <-]. right; left. repeat split.
  - cbn. intros [= <-]. right; left. repeat split.
Qed.

Lemma datetime_add_ok (t t' : datetime) (d : timedelta) :
  datetime_ok t -> timedelta_ok d -> datetime_add t d = Ok t' ->
  in_range (timestamp t + total_microseconds d)
  /\ datetime_ok t'
  /\ timestamp t' = timestamp t + total_microseconds d
  /\ tz t' = tz t /\ fold t' = false.
Proof.
  intros Ht Hd E. destruct (datetime_add_spec t d Ht Hd) as [Hin Hout].
  destruct (in_range_dec (timestamp t + total_microseconds d)) as [R | R].
  - destruct (Hin R) as (t'' & E' & Hok & Hts & _).
    rewrite E in E'. injection E' as <-.
    destruct (datetime_add_attributes t t' d E) as [Htz Hfold].
    split; [exact R | split; [exact Hok | split; [exact Hts | split; assumption]]].
  - rewrite (Hout R) in E. discriminate.
Qed.

Lemma datetime_sub_ok (t t' : datetime) (d : timedelta) :
  datetime_ok t -> timedelta_ok d -> datetime_sub t d = Ok t' ->
  in_range (timestamp t - total_microseconds d)
  /\ datetime_ok t'
  /\ timestamp t' = timestamp t - total_microseconds d
  /\ tz t' = tz t /\ fold t' = false.
Proof.
  intros Ht Hd E. destruct (datetime_sub_spec t d Ht Hd) as [Hin Hout].
  destruct (in_range_dec (timestamp t - total_microseconds d)) as [R | R].
  - destruct (Hin R) as (t'' & E' & Hok & Hts & _).
    rewrite E in E'. injection E' as <-.
    destruct (datetime_sub_attributes t t' d E) as [Htz Hfold].
    split; [exact R | split; [exact Hok | split; [exact Hts | split; assumption]]].
  - rewrite (Hout R) in E. discriminate.
Qed.

(** ** What the function does with its arguments *)

(** X1: a date that the caller supplies comes back as it was given; the
    function only ever fills in the missing one. *)
Theorem supplied_dates_preserved
    (from_date to_date : option datetime) (window : option timedelta)
    (a b : option datetime) :
  resolve_backfill_window from_date to_date window = Ok (a, b) ->
  (forall F, from_date = Some F -> a = Some F)
  /\ (forall T, to_date = Some T -> b = Some T).
Proof.
  intros H. apply resolve_ok_inv in H.
  destruct H as [(F & T & -> & -> & _ & -> & ->)
                | [(F & W & T' & -> & -> & _ & _ & _ & -> & ->)
                  | (T & W & F' & -> & -> & _ & _ & _ & -> & ->)]];
    split; intros X E; try discriminate E; exact E.
Qed.

Lemma supplied_dates_preserved_run :
  (forall F, Some jan_1_2023 = Some F -> Some jan_1_2023 = Some F)
  /\ (forall T, @None datetime = Some T -> Some jan_8_2023 = Some T).
Proof.
  apply (supplied_dates_preserved (Some jan_1_2023) None (Some seven_days)
                                  (Some jan_1_2023) (Some jan_8_2023)).
  reflexivity.
Defined.

(** X2: the function never applies date arithmetic to a missing
    argument, and a returned pair always holds two dates: every call
    either returns two dates or raises something other than TypeError. *)
Theorem never_none
    (from_date to_date : option datetime) (window : option timedelta) :
  (exists F T, resolve_backfill_window from_date to_date window
               = Ok (Some F, Some T))
  \/ (exists e, resolve_backfill_window from_date to_date window = Raise e
                /\ e <> TypeError).
Proof.
  destruct (resolve_backfill_window from_date to_date window)
    as [[a b] | e] eqn:E.
  - left. apply resolve_ok_inv in E.
    destruct E as [(F & T & _ & _ & _ & -> & ->)
                  | [(F & W & T' & _ & _ & _ & _ & _ & -> & ->)
                    | (T & W & F' & _ & _ & _ & _ & _ & -> & ->)]];
      eexists; eexists; reflexivity.
  - right. exists e. split; [reflexivity|].
    apply resolve_raise_inv in E.
    destruct E as [(-> & _) | [(-> & _) | [(-> & _) | (-> & _)]]];
      discriminate.
Qed.

(** X3: a window of positive length always gives an ordered pair: when
    the call with one date and such a window returns, the returned to_date
    is strictly later than the returned from_date. *)
Theorem positive_window_orders
    (X : datetime) (W : timedelta) (a b : datetime) :
  datetime_ok X -> timedelta_ok W -> 0 < total_microseconds W ->
  resolve_backfill_window (Some X) None (Some W) = Ok (Some a, Some b)
  \/ resolve_backfill_window None (Some X) (Some W) = Ok (Some a, Some b) ->
  datetime_gt b a = true.
Proof.
  intros HX HW Hpos H.
  assert (B : timedelta_bool W = true)
    by (apply (timedelta_bool_true W HW); lia).
  destruct H as [H | H].
  - rewrite (resolve_forward X W B) in H.
    destruct (datetime_add X W) as [T' |] eqn:E; cbn [bind] in H;
      [| discriminate].
    injection H as <- <-.
    destruct (datetime_add_ok X T' W HX HW E) as (_ & Hok & Hts & _).
    apply timestamp_order; try assumption. lia.
  - rewrite (resolve_backward X W B) in H.
    destruct (datetime_sub X W) as [F' |] eqn:E; cbn [bind] in H;
      [| discriminate].
    injection H as <- <-.
    destruct (datetime_sub_ok X F' W HX HW E) as (_ & Hok & Hts & _).
    apply timestamp_order; try assumption. lia.
Qed.

Lemma positive_window_orders_run : datetime_gt jan_8_2023 jan_1_2023 = true.
Proof.
  apply (positive_window_orders jan_1_2023 seven_days jan_1_2023 jan_8_2023).
  - evaluate.
  - evaluate.
  - reflexivity.
  - left. reflexivity.
Defined.

(** X4: the two one-date forms describe the same window.  If from_date
    with a window resolves to (from_date, T), then to_date = T with the
    same window resolves to the same pair, and the other way round.  The
    given date must have fold = 0, since a computed date always has. *)
Theorem one_date_forms_agree (X : datetime) (W : timedelta) :
  datetime_ok X -> fold X = false -> timedelta_ok W ->
  (forall T,
      resolve_backfill_window (Some X) None (Some W) = Ok (Some X, Some T) ->
      resolve_backfill_window None (Some T) (Some W) = Ok (Some X, Some T))
  /\ (forall F,
         resolve_backfill_window None (Some X) (Some W) = Ok (Some F, Some X) ->
         resolve_backfill_window (Some F) None (Some W) = Ok (Some F, Some X)).
Proof.
  intros HX Hfold HW.
  destruct (timedelta_bool W) eqn:B.
  2:{ split; intros Y H; rewrite (resolve_falsy_window _ _ W B) in H;
        discriminate H. }
  split.
  - intros T H. rewrite (resolve_forward X W B) in H.
    destruct (datetime_add X W) as [T' |] eqn:E; cbn [bind] in H;
      [| discriminate].
    injection H as <-.
    destruct (datetime_add_ok X T' W HX HW E) as (_ & Hok & Hts & Htz & _).
    destruct (datetime_sub_spec T' W Hok HW) as [Hin _].
    assert (R : in_range (timestamp T' - total_microseconds W)).
    { replace (timestamp T' - total_microseconds W) with (timestamp X) by lia.
      apply timestamp_in_range, HX. }
    destruct (Hin R) as (F' & E' & Hok' & Hts' & Htz').
    destruct (datetime_sub_attributes T' F' W E') as [_ Hfold'].
    assert (F' = X).
    { apply timestamp_injective; try assumption; try lia; congruence. }
    subst F'. rewrite (resolve_backward T' W B), E'. reflexivity.
  - intros F H. rewrite (resolve_backward X W B) in H.
    destruct (datetime_sub X W) as [F' |] eqn:E; cbn [bind] in H;
      [| discriminate].
    injection H as <-.
    destruct (datetime_sub_ok X F' W HX HW E) as (_ & Hok & Hts & Htz & _).
    destruct (datetime_add_spec F' W Hok HW) as [Hin _].
    assert (R : in_range (timestamp F' + total_microseconds W)).
    { replace (timestamp F' + total_microseconds W) with (timestamp X) by lia.
      apply timestamp_in_range, HX. }
    destruct (Hin R) as (T' & E' & Hok' & Hts' & Htz').
    destruct (datetime_add_attributes F' T' W E') as [_ Hfold'].
    assert (T' = X).
    { apply timestamp_injective; try assumption; try lia; congruence. }
    subst T'. rewrite (resolve_forward F' W B), E'. reflexivity.
Qed.

Lemma one_date_forms_agree_run :
  resolve_backfill_window None (Some jan_8_2023) (Some seven_days)
  = Ok (Some jan_1_2023, Some jan_8_2023).
Proof.
  assert (HX : datetime_ok jan_1_2023) by evaluate.
  assert (HW : timedelta_ok seven_days) by evaluate.
  destruct (one_date_forms_agree jan_1_2023 seven_days HX eq_refl HW)
    as [Hforward _].
  apply Hforward. reflexivity.
Defined.

(** X5: which message the caller gets.  The three BadParameter messages
    correspond exactly to three shapes of the arguments: both dates with a
    window that counts as given; no date at all; one date with no window
    that counts as given. *)
Theorem error_message_table
    (from_date to_date : option datetime) (window : option timedelta) :
  (resolve_backfill_window from_date to_date window
   = Raise (BadParameter msg_any_two)
   <-> from_date <> None /\ to_date <> None /\ truth window = true)
  /\ (resolve_backfill_window from_date to_date window
      = Raise (BadParameter msg_pairs)
      <-> from_date = None /\ to_date = None)
  /\ (resolve_backfill_window from_date to_date window
      = Raise (BadParameter msg_with_duration)
      <-> (from_date = None <-> to_date <> None) /\ truth window = false).
Proof.
  destruct messages_distinct as (D1 & D2 & D3).
  split; [| split]; split.
  - intros E. apply resolve_raise_inv in E.
    destruct E as [(_ & H) | [(E & _) | [(E & _) | (E & _)]]];
      first [exact H | discriminate E | injection E as E; congruence].
  - intros (Hf & Ht & Hw).
    destruct from_date as [F|]; [| contradiction].
    destruct to_date as [T|]; [| contradiction].
    unfold resolve_backfill_window. rewrite Hw. reflexivity.
  - intros E. apply resolve_raise_inv in E.
    destruct E as [(E & _) | [(_ & H) | [(E & _) | (E & _)]]];
      first [exact H | discriminate E | injection E as E; congruence].
  - intros (-> & ->). reflexivity.
  - intros E. apply resolve_raise_inv in E.
    destruct E as [(E & _) | [(E & _) | [(_ & H) | (E & _)]]];
      first [exact H | discriminate E | injection E as E; congruence].
  - intros (Hx & Hw).
    destruct from_date as [F|], to_date as [T|].
    + exfalso. assert (H : Some F = None) by (apply Hx; discriminate).
      discriminate H.
    + unfold resolve_backfill_window. rewrite Hw. reflexivity.
    + unfold resolve_backfill_window. rewrite Hw. reflexivity.
    + exfalso. apply (proj1 Hx); reflexivity.
Qed.

(** X6: which calls are accepted.  On well-formed values the function
    returns a pair exactly when both dates are given and no window counts
    as given, or one date is given with a non-zero window and the date to
    compute lies in the datetime range. *)
Theorem accepted_exactly_when
    (from_date to_date : option datetime) (window : option timedelta) :
  (forall F, from_date = Some F -> datetime_ok F) ->
  (forall T, to_date = Some T -> datetime_ok T) ->
  (forall W, window = Some W -> timedelta_ok W) ->
  (exists a b, resolve_backfill_window from_date to_date window = Ok (a, b))
  <-> (from_date <> None /\ to_date <> None /\ truth window = false)
      \/ (exists X W,
             window = Some W /\ total_microseconds W <> 0
             /\ ((from_date = Some X /\ to_date = None
                  /\ in_range (timestamp X + total_microseconds W))
                 \/ (from_date = None /\ to_date = Some X
                     /\ in_range (timestamp X - total_microseconds W)))).
Proof.
  intros HF HT HW. split.
  - intros (a & b & E). apply resolve_ok_inv in E.
    destruct E as [(F & T & -> & -> & Hw & _)
                  | [(F & W & T' & -> & -> & -> & B & E & _)
                    | (T & W & F' & -> & -> & -> & B & E & _)]].
    + left. repeat split; try discriminate; exact Hw.
    + right. exists F, W.
      pose proof (HW W eq_refl) as HWok.
      destruct (datetime_add_ok F T' W (HF F eq_refl) HWok E) as (R & _).
      split; [reflexivity|].
      split; [apply (timedelta_bool_true W HWok), B | left; auto].
    + right. exists T, W.
      pose proof (HW W eq_refl) as HWok.
      destruct (datetime_sub_ok T F' W (HT T eq_refl) HWok E) as (R & _).
      split; [reflexivity|].
      split; [apply (timedelta_bool_true W HWok), B | right; auto].
  - intros [(Hf & Ht & Hw)
           | (X & W & -> & Hnz & [(-> & -> & R) | (-> & -> & R)])].
    + destruct from_date as [F|]; [| contradiction].
      destruct to_date as [T|]; [| contradiction].
      exists (Some F), (Some T).
      unfold resolve_backfill_window. rewrite Hw. reflexivity.
    + pose proof (HW W eq_refl) as HWok.
      apply (timedelta_bool_true W HWok) in Hnz.
      destruct (datetime_add_spec X W (HF X eq_refl) HWok) as [Hin _].
      destruct (Hin R) as (T' & E & _).
      exists (Some X), (Some T').
      rewrite (resolve_forward X W Hnz), E. reflexivity.
    + pose proof (HW W eq_refl) as HWok.
      apply (timedelta_bool_true W HWok) in Hnz.
      destruct (datetime_sub_spec X W (HT X eq_refl) HWok) as [Hin _].
      destruct (Hin R) as (F' & E & _).
      exists (Some F'), (Some X).
      rewrite (resolve_backward X W Hnz), E. reflexivity.
Qed.

Lemma accepted_exactly_when_run :
  exists a b,
    resolve_backfill_window (Some jan_1_2023) None (Some seven_days)
    = Ok (a, b).
Proof.
  assert (HF : forall F, Some jan_1_2023 = Some F -> datetime_ok F)
    by (intros F [= <-]; evaluate).
  assert (HT : forall T, @None datetime = Some T -> datetime_ok T)
    by (intros T [=]).
  assert (HW : forall W, Some seven_days = Some W -> timedelta_ok W)
    by (intros W [= <-]; evaluate).
  apply (accepted_exactly_when (Some jan_1_2023) None (Some seven_days)
                               HF HT HW).
  right. exists jan_1_2023, seven_days.
  split; [reflexivity|]. split; [evaluate|].
  left. split; [reflexivity|]. split; [reflexivity|]. evaluate.
Defined.

(** ** The command, step by step *)

Example launch_prints_through_the_sink :
  backfill (fun (_ : unit) _ _ => Ok tt)
           (fun (_ : unit) (r : launch_request) =>
              _ <~ lr_output r "Launching" None ;; pure (Ok (Some tt)))
           (fun (_ : unit) (_ : unit) => Ok "http://localhost:30080/console")
           (fun _ _ => Ok tt)
           tt "flytesnacks" "development"
           (Some jan_1_2023) (Some jan_8_2023) None
           "daily" None false false false None None
  = ([RemoteRequested "flytesnacks" "development";
      BackfillLaunched "flytesnacks" "development"
                       (Some jan_1_2023) (Some jan_8_2023);
      Secho "Launching" None;
      ConsoleUrlGenerated;
      Secho (console_line false "http://localhost:30080/console")
            (Some "green")],
     Ok tt).
Proof. reflexivity. Qed.

Section CommandRuns.

Variables ClickContext Remote Entity : Type.
Variable get_remote : ClickContext -> string -> string -> result Remote.
Variable launch_backfill : Remote -> launch_request -> run (option Entity).
Variable generate_console_url : Remote -> Entity -> result string.
Variable click_secho : string -> option string -> result unit.

Variables (ctx : ClickContext) (project domain : string).
Variables (from_date to_date : option datetime).
Variable backfill_window : option timedelta.
Variables (launchplan : string) (launchplan_version : option string).
Variables dry_run no_execute parallel : bool.
Variables execution_name version : option string.

(** Every run of the command after the window is resolved. *)
Lemma backfill_resolved (F T : option datetime) :
  resolve_backfill_window from_date to_date backfill_window = Ok (F, T) ->
  backfill get_remote launch_backfill generate_console_url click_secho
           ctx project domain from_date to_date backfill_window
           launchplan launchplan_version dry_run no_execute parallel
           execution_name version
  = match get_remote ctx project domain with
    | Raise e => ([RemoteRequested project domain], Raise e)
    | Ok remote =>
      let answer :=
        launch_backfill remote
          (mk_launch_request project domain F T launchplan
             launchplan_version execution_name version
             dry_run no_execute parallel (secho click_secho)) in
      match snd answer with
      | Raise e =>
        (RemoteRequested project domain
         :: BackfillLaunched project domain F T :: fst answer, Raise e)
      | Ok None =>
        (RemoteRequested project domain
         :: BackfillLaunched project domain F T :: fst answer, Ok tt)
      | Ok (Some entity) =>
        match generate_console_url remote entity with
        | Raise e =>
          (RemoteRequested project domain
           :: BackfillLaunched project domain F T
           :: fst answer ++ [ConsoleUrlGenerated], Raise e)
        | Ok console_url =>
          (RemoteRequested project domain
           :: BackfillLaunched project domain F T
           :: fst answer
              ++ [ConsoleUrlGenerated;
                  Secho (console_line no_execute console_url) (Some "green")],
           click_secho (console_line no_execute console_url) (Some "green"))
        end
      end
    end%list.
Proof.
  intros E. unfold backfill. rewrite E, bind_pure_ok.
  cbv beta iota zeta.
  destruct (get_remote ctx project domain) as [remote | e]; [| reflexivity].
  cbn [run_bind call app].
  destruct (launch_backfill remote _) as [evs [[entity |] | e]];
    cbn [invoke fst snd run_bind pure app];
    [| rewrite app_nil_r; reflexivity | reflexivity].
  destruct (generate_console_url remote entity) as [url | e];
    cbn [call run_bind app]; [| reflexivity].
  unfold console_line.
  destruct no_execute; cbn [secho call app]; reflexivity.
Qed.

Lemma backfill_unresolved (e : exn) :
  resolve_backfill_window from_date to_date backfill_window = Raise e ->
  backfill get_remote launch_backfill generate_console_url click_secho
           ctx project domain from_date to_date backfill_window
           launchplan launchplan_version dry_run no_execute parallel
           execution_name version
  = ([], Raise e).
Proof.
  intros E. unfold backfill. rewrite E. apply bind_pure_raise.
Qed.

(** X7: whatever the collaborators answer, every run of the command is
    an initial part of one sequence: ask for the remote, launch the
    backfill, whatever the launch itself emits (through the sink it is
    handed, or otherwise), generate the console URL, print one green
    line.  The command's own steps come in that order, each at most
    once. *)
Theorem backfill_event_order :
  exists (F T : option datetime) (evs : list event) (text : string)
         (rest : list event),
    (trace (backfill get_remote launch_backfill generate_console_url click_secho
             ctx project domain from_date to_date backfill_window
             launchplan launchplan_version dry_run no_execute parallel
             execution_name version)
     ++ rest)%list
    = (RemoteRequested project domain
       :: BackfillLaunched project domain F T
       :: evs ++ [ConsoleUrlGenerated; Secho text (Some "green")])%list
    /\ (evs = []
        \/ exists remote,
             get_remote ctx project domain = Ok remote
             /\ evs = trace (launch_backfill remote
                               (mk_launch_request project domain F T launchplan
                  launchplan_version execution_name version
                  dry_run no_execute parallel (secho click_secho)))).
Proof.
  destruct (resolve_backfill_window from_date to_date backfill_window)
    as [[F T] | e] eqn:E.
  - exists F, T. rewrite (backfill_resolved F T E).
    destruct (get_remote ctx project domain) as [remote | e] eqn:Eg.
    2:{ exists [], EmptyString. eexists. split; [reflexivity | left; reflexivity]. }
    cbv zeta.
    exists (trace (launch_backfill remote
                     (mk_launch_request project domain F T launchplan
                  launchplan_version execution_name version
                  dry_run no_execute parallel (secho click_secho)))).
    unfold trace at 2.
    destruct (snd (launch_backfill remote _)) as [[entity |] | e].
    + destruct (generate_console_url remote entity) as [url | e].
      * exists (console_line no_execute url), [].
        split; [cbn [trace fst]; rewrite app_nil_r; reflexivity|].
        right. exists remote. split; reflexivity.
      * exists EmptyString, [Secho EmptyString (Some "green")].
        split; [cbn [trace fst app]; rewrite <- app_assoc; reflexivity|].
        right. exists remote. split; reflexivity.
    + exists EmptyString,
        [ConsoleUrlGenerated; Secho EmptyString (Some "green")].
      split; [reflexivity|]. right. exists remote. split; reflexivity.
    + exists EmptyString,
        [ConsoleUrlGenerated; Secho EmptyString (Some "green")].
      split; [reflexivity|]. right. exists remote. split; reflexivity.
  - exists None, None, [], EmptyString.
    rewrite (backfill_unresolved e E). eexists.
    split; [reflexivity | left; reflexivity].
Qed.

(** X8: the command ends normally exactly when the window resolves, the
    remote is obtained, and the launch either returns no entity or returns
    one whose console URL is generated and whose console line is
    printed without error. *)
Theorem backfill_succeeds_iff :
  outcome (backfill get_remote launch_backfill generate_console_url click_secho
             ctx project domain from_date to_date backfill_window
             launchplan launchplan_version dry_run no_execute parallel
             execution_name version) = Ok tt
  <-> exists F T remote,
        resolve_backfill_window from_date to_date backfill_window = Ok (F, T)
        /\ get_remote ctx project domain = Ok remote
        /\ (outcome (launch_backfill remote
                       (mk_launch_request project domain F T launchplan
                  launchplan_version execution_name version
                  dry_run no_execute parallel (secho click_secho))) = Ok None
            \/ exists entity url,
                 outcome (launch_backfill remote
                            (mk_launch_request project domain F T launchplan
                  launchplan_version execution_name version
                  dry_run no_execute parallel (secho click_secho))) = Ok (Some entity)
                 /\ generate_console_url remote entity = Ok url
                 /\ click_secho (console_line no_execute url) (Some "green")
                    = Ok tt).
Proof.
  unfold outcome. split.
  - destruct (resolve_backfill_window from_date to_date backfill_window)
      as [[F T] | e] eqn:E.
    + rewrite (backfill_resolved F T E).
      destruct (get_remote ctx project domain) as [remote | e] eqn:Eg;
        [| discriminate].
      cbv zeta.
      destruct (snd (launch_backfill remote _)) as [[entity |] | e] eqn:El;
        [| | discriminate].
      * destruct (generate_console_url remote entity) as [url | e] eqn:Eu;
          [| discriminate].
        cbn [snd]. intros Ep. exists F, T, remote.
        split; [reflexivity|]. split; [reflexivity|].
        right. exists entity, url. auto.
      * intros _. exists F, T, remote. auto.
    + rewrite (backfill_unresolved e E). discriminate.
  - intros (F & T & remote & E & Eg & [El | (entity & url & El & Eu & Ep)]);
      rewrite (backfill_resolved F T E), Eg; cbv zeta; rewrite El;
      [reflexivity|].
    rewrite Eu. exact Ep.
Qed.

(** X9: the command fails with an exception exactly when its first
    failing step raises that exception: the resolver, else the remote
    construction, else the launch, else the console URL, else the print
    of the console line.  Nothing is caught, replaced or added. *)
Theorem backfill_fails_iff (e : exn) :
  outcome (backfill get_remote launch_backfill generate_console_url click_secho
             ctx project domain from_date to_date backfill_window
             launchplan launchplan_version dry_run no_execute parallel
             execution_name version) = Raise e
  <-> resolve_backfill_window from_date to_date backfill_window = Raise e
      \/ exists F T,
           resolve_backfill_window from_date to_date backfill_window
           = Ok (F, T)
           /\ (get_remote ctx project domain = Raise e
               \/ exists remote,
                    get_remote ctx project domain = Ok remote
                    /\ (outcome (launch_backfill remote
                                   (mk_launch_request project domain F T launchplan
                  launchplan_version execution_name version
                  dry_run no_execute parallel (secho click_secho))) = Raise e
                        \/ exists entity,
                             outcome (launch_backfill remote
                                        (mk_launch_request project domain F T launchplan
                  launchplan_version execution_name version
                  dry_run no_execute parallel (secho click_secho))) = Ok (Some entity)
                             /\ (generate_console_url remote entity
                                 = Raise e
                                 \/ exists url,
                                      generate_console_url remote entity
                                      = Ok url
                                      /\ click_secho
                                           (console_line no_execute url)
                                           (Some "green") = Raise e))).
Proof.
  unfold outcome. split.
  - destruct (resolve_backfill_window from_date to_date backfill_window)
      as [[F T] | e'] eqn:E.
    + rewrite (backfill_resolved F T E). intros H. right. exists F, T.
      split; [reflexivity|].
      destruct (get_remote ctx project domain) as [remote | e'] eqn:Eg.
      * right. exists remote. split; [reflexivity|]. cbv zeta in H.
        destruct (snd (launch_backfill remote _)) as [[entity |] | e'] eqn:El.
        -- right. exists entity. split; [reflexivity|].
           destruct (generate_console_url remote entity) as [url | e'].
           ++ right. exists url. split; [reflexivity | exact H].
           ++ left. injection H as <-. reflexivity.
        -- discriminate H.
        -- left. injection H as <-. reflexivity.
      * left. injection H as <-. reflexivity.
    + rewrite (backfill_unresolved e' E). intros [= <-]. left. reflexivity.
  - intros [E | (F & T & E & [Eg | (remote & Eg & [El | (entity & El & [Eu | (url & Eu & Ep)])])])].
    + rewrite (backfill_unresolved e E). reflexivity.
    + rewrite (backfill_resolved F T E), Eg. reflexivity.
    + rewrite (backfill_resolved F T E), Eg. cbv zeta. rewrite El. reflexivity.
    + rewrite (backfill_resolved F T E), Eg. cbv zeta. rewrite El, Eu.
      reflexivity.
    + rewrite (backfill_resolved F T E), Eg. cbv zeta. rewrite El, Eu.
      exact Ep.
Qed.

(** X10: what the command itself prints.  When the launch returns no
    entity (as in dry-run), the command adds nothing after the launch's
    own events and ends normally.  When the launch returns an entity and
    its console URL is generated, the command's last act is one green
    line, the no-execute or the execution message built from that URL, and
    the command ends as that print ends. *)
Theorem backfill_console_line (F T : option datetime) (remote : Remote) :
  resolve_backfill_window from_date to_date backfill_window = Ok (F, T) ->
  get_remote ctx project domain = Ok remote ->
  (outcome (launch_backfill remote
              (mk_launch_request project domain F T launchplan
                  launchplan_version execution_name version
                  dry_run no_execute parallel (secho click_secho))) = Ok None ->
   backfill get_remote launch_backfill generate_console_url click_secho
             ctx project domain from_date to_date backfill_window
             launchplan launchplan_version dry_run no_execute parallel
             execution_name version
   = (RemoteRequested project domain
      :: BackfillLaunched project domain F T
      :: trace (launch_backfill remote
                  (mk_launch_request project domain F T launchplan
                  launchplan_version execution_name version
                  dry_run no_execute parallel (secho click_secho))),
      Ok tt))
  /\ (forall entity url,
         outcome (launch_backfill remote
                    (mk_launch_request project domain F T launchplan
                  launchplan_version execution_name version
                  dry_run no_execute parallel (secho click_secho))) = Ok (Some entity) ->
         generate_console_url remote entity = Ok url ->
         backfill get_remote launch_backfill generate_console_url click_secho
             ctx project domain from_date to_date backfill_window
             launchplan launchplan_version dry_run no_execute parallel
             execution_name version
         = ((RemoteRequested project domain
             :: BackfillLaunched project domain F T
             :: trace (launch_backfill remote
                         (mk_launch_request project domain F T launchplan
                  launchplan_version execution_name version
                  dry_run no_execute parallel (secho click_secho)))
                ++ [ConsoleUrlGenerated;
                    Secho (console_line no_execute url) (Some "green")])%list,
            click_secho (console_line no_execute url) (Some "green"))).
Proof.
  intros E Eg. unfold outcome, trace. split.
  - intros El. rewrite (backfill_resolved F T E), Eg. cbv zeta.
    rewrite El. reflexivity.
  - intros entity url El Eu. rewrite (backfill_resolved F T E), Eg. cbv zeta.
    rewrite El, Eu. reflexivity.
Qed.


End CommandRuns.

Lemma backfill_console_line_run :
  backfill (fun (_ : unit) _ _ => Ok tt)
           (fun (_ : unit) (r : launch_request) =>
              _ <~ lr_output r "Launching" None ;; pure (Ok (Some tt)))
           (fun (_ : unit) (_ : unit) => Ok "http://localhost:30080/console")
           (fun _ _ => Ok tt)
           tt "flytesnacks" "development"
           (Some jan_1_2023) None (Some seven_days)
           "daily" None false true false None None
  = ([RemoteRequested "flytesnacks" "development";
      BackfillLaunched "flytesnacks" "development"
                       (Some jan_1_2023) (Some jan_8_2023);
      Secho "Launching" None;
      ConsoleUrlGenerated;
      Secho (console_line true "http://localhost:30080/console")
            (Some "green")],
     Ok tt).
Proof.
  destruct (backfill_console_line unit unit unit
              (fun _ _ _ => Ok tt)
              (fun _ r => _ <~ lr_output r "Launching" None ;;
                          pure (Ok (Some tt)))
              (fun _ _ => Ok "http://localhost:30080/console")
              (fun _ _ => Ok tt)
              tt "flytesnacks" "development"
              (Some jan_1_2023) None (Some seven_days)
              "daily" None false true false None None
              (Some jan_1_2023) (Some jan_8_2023) tt eq_refl eq_refl)
    as [_ Hline].
  apply (Hline tt "http://localhost:30080/console"); reflexivity.
Defined.


(** X12: from the command line to the launch.  With only a from-date and
    a non-zero window whose end lies in the datetime range, and a remote
    that can be built, the backfill is launched from that date to the date
    one window later; with only a to-date, from one window earlier to that
    date. *)
Theorem backfill_launches_computed_window
    (ClickContext Remote Entity : Type)
    (get_remote : ClickContext -> string -> string -> result Remote)
    (launch_backfill : Remote -> launch_request -> run (option Entity))
    (generate_console_url : Remote -> Entity -> result string)
    (click_secho : string -> option string -> result unit)
    (ctx : ClickContext) (project domain : string)
    (X : datetime) (W : timedelta)
    (launchplan : string) (launchplan_version : option string)
    (dry_run no_execute parallel : bool)
    (execution_name version : option string) (remote : Remote) :
  datetime_ok X -> timedelta_ok W -> total_microseconds W <> 0 ->
  get_remote ctx project domain = Ok remote ->
  (in_range (timestamp X + total_microseconds W) ->
   exists T' rest,
     datetime_ok T'
     /\ timestamp T' = timestamp X + total_microseconds W
     /\ trace (backfill get_remote launch_backfill generate_console_url
                 click_secho
                 ctx project domain (Some X) None (Some W)
                 launchplan launchplan_version dry_run no_execute parallel
                 execution_name version)
        = RemoteRequested project domain
          :: BackfillLaunched project domain (Some X) (Some T') :: rest)
  /\ (in_range (timestamp X - total_microseconds W) ->
      exists F' rest,
        datetime_ok F'
        /\ timestamp F' = timestamp X - total_microseconds W
        /\ trace (backfill get_remote launch_backfill generate_console_url
                    click_secho
                    ctx project domain None (Some X) (Some W)
                    launchplan launchplan_version dry_run no_execute parallel
                    execution_name version)
           = RemoteRequested project domain
             :: BackfillLaunched project domain (Some F') (Some X) :: rest).
Proof.
  intros HX HW Hnz Eg. apply (timedelta_bool_true W HW) in Hnz.
  split; intros R.
  - destruct (datetime_add_spec X W HX HW) as [Hin _].
    destruct (Hin R) as (T' & E & Hok & Hts & _).
    assert (Er : resolve_backfill_window (Some X) None (Some W)
                 = Ok (Some X, Some T'))
      by (rewrite (resolve_forward X W Hnz), E; reflexivity).
    exists T'.
    rewrite (backfill_resolved _ _ _ get_remote launch_backfill
               generate_console_url click_secho ctx project domain _ _ _
               launchplan launchplan_version dry_run no_execute parallel
               execution_name version _ _ Er), Eg.
    cbv zeta.
    destruct (snd (launch_backfill remote _)) as [[entity |] | e];
      [destruct (generate_console_url remote entity) | |];
      eexists; (split; [exact Hok | split; [exact Hts | reflexivity]]).
  - destruct (datetime_sub_spec X W HX HW) as [Hin _].
    destruct (Hin R) as (F' & E & Hok & Hts & _).
    assert (Er : resolve_backfill_window None (Some X) (Some W)
                 = Ok (Some F', Some X))
      by (rewrite (resolve_backward X W Hnz), E; reflexivity).
    exists F'.
    rewrite (backfill_resolved _ _ _ get_remote launch_backfill
               generate_console_url click_secho ctx project domain _ _ _
               launchplan launchplan_version dry_run no_execute parallel
               execution_name version _ _ Er), Eg.
    cbv zeta.
    destruct (snd (launch_backfill remote _)) as [[entity |] | e];
      [destruct (generate_console_url remote entity) | |];
      eexists; (split; [exact Hok | split; [exact Hts | reflexivity]]).
Qed.

Lemma backfill_launches_computed_window_run :
  exists T' rest,
    timestamp T' = timestamp jan_1_2023 + total_microseconds seven_days
    /\ trace (backfill (fun (_ : unit) _ _ => Ok tt)
                (fun (_ : unit) _ => ([], Ok (Some tt)))
                (fun (_ : unit) (_ : unit) =>
                   Ok "http://localhost:30080/console")
                (fun _ _ => Ok tt)
                tt "flytesnacks" "development"
                (Some jan_1_2023) None (Some seven_days)
                "daily" None false false false None None)
       = RemoteRequested "flytesnacks" "development"
         :: BackfillLaunched "flytesnacks" "development"
              (Some jan_1_2023) (Some T') :: rest.
Proof.
  assert (HX : datetime_ok jan_1_2023) by evaluate.
  assert (HW : timedelta_ok seven_days) by evaluate.
  assert (Hnz : total_microseconds seven_days <> 0) by evaluate.
  assert (R : in_range (timestamp jan_1_2023 + total_microseconds seven_days))
    by evaluate.
  destruct (backfill_launches_computed_window unit unit unit
              (fun _ _ _ => Ok tt) (fun _ _ => ([], Ok (Some tt)))
              (fun _ _ => Ok "http://localhost:30080/console")
              (fun _ _ => Ok tt)
              tt "flytesnacks" "development" jan_1_2023 seven_days
              "daily" None false false false None None tt
              HX HW Hnz eq_refl) as [Hforward _].
  destruct (Hforward R) as (T' & rest & _ & Hts & Htr).
  exists T', rest. split; assumption.
Defined.
